(** * Tool functions of the agent samples: a shallow embedding

    The three sample scripts register plain Python functions as tools of a
    hosted chat agent:

    - [01-python-agent-framework-azure.py] and
      [03-python-agent-framework-azure.py]: [get_random_destination];
    - [04-python-agent-framework-bookinghotel.py]: [booking_hotel] and
      [booking_flight], two lookups backed by an HTTP search API.

    The embedding keeps the shape of the scripts.  Python values that the
    code only passes around (parsed JSON bodies) are an inductive type;
    exceptions are an error result; the process environment, the network
    and standard output are an explicit world threaded through a small
    state-and-error monad. *)

From Stdlib Require Import ZArith Lia Ascii.
From stdpp Require Import base option list strings pretty gmap.

Local Open Scope Z_scope.

(** ** Python values, exceptions and built-ins *)

Module Python.

(** A [str] is modelled by a Rocq string holding its text.  Values produced
    by a JSON parser: [dict]s keep their items in insertion order, a [float]
    is carried by its printed form, which is all the samples ever do with
    one. *)
#[warnings="-register-all"]
Inductive pyval : Type :=
  | PNone
  | PBool (b : bool)
  | PInt (n : Z)
  | PFloat (printed : string)
  | PStr (s : string)
  | PList (items : list pyval)
  | PDict (items : list (string * pyval)).

Inductive exn : Type :=
  | IndexError
  | KeyError (key : string)
  | TypeError
  | AttributeError
  | JSONDecodeError
  | ConnectionError
  | ToolException.

Inductive result (A : Type) : Type :=
  | Ok (a : A)
  | Raise (e : exn).
Arguments Ok {A} a.
Arguments Raise {A} e.

Definition is_str (v : pyval) : bool :=
  match v with PStr _ => true | _ => false end.

(** [l[i]] on a list: a negative index counts from the end, an index out
    of range raises [IndexError]. *)
Definition list_getitem {A : Type} (l : list A) (i : Z) : result A :=
  let n := Z.of_nat (length l) in
  let j := if i <? 0 then i + n else i in
  if (0 <=? j) && (j <? n)
  then match l !! Z.to_nat j with
       | Some x => Ok x
       | None => Raise IndexError
       end
  else Raise IndexError.

Fixpoint dict_lookup {V : Type} (items : list (string * V)) (key : string)
  : option V :=
  match items with
  | [] => None
  | (k, v) :: rest => if String.eqb k key then Some v else dict_lookup rest key
  end.

(** [v[key]] with a [str] key: only a [dict] accepts it. *)
Definition getitem_str (v : pyval) (key : string) : result pyval :=
  match v with
  | PDict items =>
      match dict_lookup items key with
      | Some x => Ok x
      | None => Raise (KeyError key)
      end
  | _ => Raise TypeError
  end.

(** [x or y] for an optional string [x]: [None] and [''] are falsy. *)
Definition or_else (x : option string) (y : string) : string :=
  match x with
  | None => y
  | Some s => if String.eqb s EmptyString then y else s
  end.

(** *** [repr] and [str] *)

Definition chr (n : nat) : string := String (Ascii.ascii_of_nat n) EmptyString.

Definition LF : string := chr 10.
Definition backslash : Ascii.ascii := Ascii.ascii_of_nat 92.
Definition quote1 : Ascii.ascii := Ascii.ascii_of_nat 39.
Definition quote2 : Ascii.ascii := Ascii.ascii_of_nat 34.

Definition hex_digit (n : nat) : string :=
  match String.get n "0123456789abcdef" with
  | Some c => String c EmptyString
  | None => EmptyString
  end.

(** One character inside a quoted [repr].  Characters beyond ASCII are
    taken to be printable and kept as they are. *)
Definition repr_char (q c : Ascii.ascii) : string :=
  let n := Ascii.nat_of_ascii c in
  if Ascii.eqb c backslash then String backslash (String backslash EmptyString)
  else if Ascii.eqb c q then String backslash (String q EmptyString)
  else if Nat.eqb n 9 then String backslash "t"
  else if Nat.eqb n 10 then String backslash "n"
  else if Nat.eqb n 13 then String backslash "r"
  else if Nat.ltb n 32 || Nat.eqb n 127
       then String backslash ("x" +:+ hex_digit (n / 16) +:+ hex_digit (n mod 16))
  else String c EmptyString.

Fixpoint has_char (c : Ascii.ascii) (s : string) : bool :=
  match s with
  | EmptyString => false
  | String d rest => Ascii.eqb c d || has_char c rest
  end.

Fixpoint repr_chars (q : Ascii.ascii) (s : string) : string :=
  match s with
  | EmptyString => EmptyString
  | String c rest => repr_char q c +:+ repr_chars q rest
  end.

(** Single quotes, unless the text has a single quote and no double one. *)
Definition repr_str (s : string) : string :=
  let q := if has_char quote1 s && negb (has_char quote2 s) then quote2 else quote1 in
  String q (repr_chars q s +:+ String q EmptyString).

Fixpoint repr (v : pyval) : string :=
  match v with
  | PNone => "None"
  | PBool true => "True"
  | PBool false => "False"
  | PInt n => pretty n
  | PFloat printed => printed
  | PStr s => repr_str s
  | PList items =>
      "[" +:+ (fix go (l : list pyval) : string :=
                match l with
                | [] => EmptyString
                | x :: [] => repr x
                | x :: rest => repr x +:+ ", " +:+ go rest
                end) items +:+ "]"
  | PDict items =>
      "{" +:+ (fix go (l : list (string * pyval)) : string :=
                match l with
                | [] => EmptyString
                | (k, x) :: [] => repr_str k +:+ ": " +:+ repr x
                | (k, x) :: rest => repr_str k +:+ ": " +:+ repr x +:+ ", " +:+ go rest
                end) items +:+ "}"
  end.

(** [str(v)]: a [str] is returned as it is, anything else through [repr]. *)
Definition str (v : pyval) : string :=
  match v with
  | PStr s => s
  | _ => repr v
  end.

End Python.

Export Python.

(** ** The world a tool runs in *)

Module Runtime.

(** One [requests.get(url, params=...)]; a parameter whose value is [None]
    is kept in the dictionary as written in the source. *)
Record Request : Type := GET {
  url : string;
  params : list (string * option string)
}.

(** What the tools read of a [requests.Response]: [status_code] and the
    outcome of [json()], which raises on a body that is not JSON. *)
Record Response : Type := {
  status_code : Z;
  json_body : option pyval
}.

Inductive Printed : Type :=
  | Line (s : string)
  | Params (d : list (string * option string)).

(** [environ] is [os.environ]; [network] answers a request given the
    requests sent before it, or raises; [sent] and [stdout] record what
    the process has done so far; [invocation_count] holds the counter of
    each decorated tool, by name. *)
Record World : Type := {
  environ : gmap string string;
  network : list Request → Request → result Response;
  sent : list Request;
  stdout : list Printed;
  invocation_count : gmap string nat
}.

Definition M (A : Type) : Type := World → result A * World.

#[export] Instance M_ret : MRet M := λ A a w, (Ok a, w).

#[export] Instance M_bind : MBind M := λ A B f m w,
  match m w with
  | (Ok a, w') => f a w'
  | (Raise e, w') => (Raise e, w')
  end.

Definition raise {A : Type} (e : exn) : M A := λ w, (Raise e, w).

Definition lift {A : Type} (r : result A) : M A := λ w, (r, w).

Definition os_environ_get (key : string) : M (option string) :=
  λ w, (Ok (environ w !! key), w).

Definition print (p : Printed) : M unit :=
  λ w, (Ok (),
        {| environ := environ w; network := network w; sent := sent w;
           stdout := stdout w ++ [p];
           invocation_count := invocation_count w |}).

Definition requests_get (u : string) (ps : list (string * option string))
  : M Response :=
  λ w, let r := GET u ps in
       (network w (sent w) r,
        {| environ := environ w; network := network w;
           sent := sent w ++ [r]; stdout := stdout w;
           invocation_count := invocation_count w |}).

Definition response_json (r : Response) : M pyval :=
  match json_body r with
  | Some v => mret v
  | None => raise JSONDecodeError
  end.

End Runtime.

Export Runtime.

(** ** What the samples use of the agent framework *)

Module AgentFramework.

(** A message holds a list of content items; only a text item has a
    [text] attribute. *)
Inductive Content : Type :=
  | TextContent (text : string)
  | FunctionCallContent (name : string)
  | FunctionResultContent (value : pyval).

Definition content_text (c : Content) : result string :=
  match c with
  | TextContent t => Ok t
  | _ => Raise AttributeError
  end.

Record ChatMessage : Type := { contents : list Content }.

(** The object returned by [agent.run]: the samples read its [messages]
    attribute and its [text] property. *)
Record AgentRunResponse : Type := {
  messages : list ChatMessage;
  text : string
}.

Definition bump (name : string) (w : World) : World :=
  {| environ := environ w; network := network w; sent := sent w;
     stdout := stdout w;
     invocation_count :=
       <[name := S (default 0%nat (invocation_count w !! name))]>
         (invocation_count w) |}.

(** Modelled from the spec: the [ai_function(max_invocations=...)] decorator
    of the agent framework, whose code is not among the sources.  The spec
    describes it as a cap on the number of invocations of a tool, there to
    stop runaway tool use by the calling model: a tool that has reached its
    cap is not run again, the call is refused.  Without a cap every call
    runs. *)
Definition ai_function {A : Type} (name : string) (max_invocations : option nat)
    (func : M A) : M A :=
  λ w, let n := default 0%nat (invocation_count w !! name) in
       match max_invocations with
       | Some cap =>
           if (cap <=? n)%nat then (Raise ToolException, w)
           else func (bump name w)
       | None => func (bump name w)
       end.

End AgentFramework.

Export AgentFramework.

(** ** Sample 01: [get_random_destination] *)

Module Sample01.

Definition destinations : list string := [
  "Barcelona, Spain";
  "Paris, France";
  "Berlin, Germany";
  "Tokyo, Japan";
  "Sydney, Australia";
  "New York, USA";
  "Cairo, Egypt";
  "Cape Town, South Africa";
  "Rio de Janeiro, Brazil";
  "Bali, Indonesia"
].

(** [randint] is the draw of [random.randint]: [randint a b] is some
    integer between [a] and [b], both included. *)
Definition get_random_destination (randint : Z → Z → Z) : result string :=
  list_getitem destinations (randint 0 (Z.of_nat (length destinations) - 1)).

(** The last lines of [main], after [response = await agent.run(...)]:
    what is displayed of the response. *)
Definition show_travel_plan (response : AgentRunResponse) : M unit :=
  last_message ← lift (list_getitem (messages response) (-1));
  content ← lift (list_getitem (contents last_message) 0);
  text_content ← lift (content_text content);
  _ ← print (Line "🏖️ Travel plan:");
  print (Line text_content).

End Sample01.

(** ** Sample 03: the same tool, defined again *)

Module Sample03.

Definition destinations : list string := [
  "Barcelona, Spain";
  "Paris, France";
  "Berlin, Germany";
  "Tokyo, Japan";
  "Sydney, Australia";
  "New York, USA";
  "Cairo, Egypt";
  "Cape Town, South Africa";
  "Rio de Janeiro, Brazil";
  "Bali, Indonesia"
].

Definition get_random_destination (randint : Z → Z → Z) : result string :=
  list_getitem destinations (randint 0 (Z.of_nat (length destinations) - 1)).

(** The last lines of [main], the same as in sample 01. *)
Definition show_travel_plan (response1 : AgentRunResponse) : M unit :=
  last_message ← lift (list_getitem (messages response1) (-1));
  content ← lift (list_getitem (contents last_message) 0);
  text_content ← lift (content_text content);
  _ ← print (Line "🏖️ Travel plan:");
  print (Line text_content).

End Sample03.

(** ** Sample 04: the booking tools *)

Module Sample04.

Definition default_base_url : string := "https://serpapi.com/search".

Definition booking_hotel (query check_in_date check_out_date : string) : M pyval :=
  api_key ← os_environ_get "SERP_API_KEY";
  let params_ := [
    ("engine", Some "google_hotels");
    ("q", Some query);
    ("check_in_date", Some check_in_date);
    ("check_out_date", Some check_out_date);
    ("adults", Some "1");
    ("currency", Some "USD");
    ("gl", Some "us");
    ("hl", Some "en");
    ("api_key", api_key)
  ] in
  base ← os_environ_get "SERP_API_BASE_URL";
  let serp_base_url := or_else base default_base_url in
  response ← requests_get serp_base_url params_;
  if status_code response =? 200 then
    response ← response_json response;
    lift (getitem_str response "properties")
  else
    mret (PStr "request failed").

Definition go_params (api_key : option string)
    (origin destination outbound_date return_date : string)
  : list (string * option string) := [
    ("engine", Some "google_flights");
    ("departure_id", Some origin);
    ("arrival_id", Some destination);
    ("outbound_date", Some outbound_date);
    ("return_date", Some return_date);
    ("currency", Some "USD");
    ("hl", Some "en");
    ("api_key", api_key)
  ].

Definition back_params (api_key : option string)
    (origin destination outbound_date return_date : string)
  : list (string * option string) := [
    ("engine", Some "google_flights");
    ("departure_id", Some destination);
    ("arrival_id", Some origin);
    ("outbound_date", Some outbound_date);
    ("return_date", Some return_date);
    ("currency", Some "USD");
    ("hl", Some "en");
    ("api_key", api_key)
  ].

Definition booking_flight (origin destination outbound_date return_date : string)
  : M string :=
  api_key ← os_environ_get "SERP_API_KEY";
  let go_params_ := go_params api_key origin destination outbound_date return_date in
  _ ← print (Params go_params_);
  base ← os_environ_get "SERP_API_BASE_URL";
  let serp_base_url := or_else base default_base_url in
  go_response ← requests_get serp_base_url go_params_;
  let result_ := EmptyString in
  result_ ← (if status_code go_response =? 200 then
               response ← response_json go_response;
               mret (result_ +:+ ("# outbound " +:+ LF +:+ " ") +:+ str response)
             else
               _ ← print (Line "error with outbound request");
               mret result_);
  api_key ← os_environ_get "SERP_API_KEY";
  let back_params_ := back_params api_key origin destination outbound_date return_date in
  base ← os_environ_get "SERP_API_BASE_URL";
  let serp_base_url := or_else base default_base_url in
  back_response ← requests_get serp_base_url back_params_;
  result_ ← (if status_code back_response =? 200 then
               response ← response_json back_response;
               mret (result_ +:+ (LF +:+ " # return " +:+ LF) +:+ str response)
             else
               _ ← print (Line "error with return request");
               mret result_);
  _ ← print (Line result_);
  mret result_.

(** The tools as registered: both are declared with
    [@ai_function(max_invocations=3)]. *)
Definition booking_hotel_tool (query check_in_date check_out_date : string)
  : M pyval :=
  ai_function "booking_hotel" (Some 3%nat)
    (booking_hotel query check_in_date check_out_date).

Definition booking_flight_tool
    (origin destination outbound_date return_date : string) : M string :=
  ai_function "booking_flight" (Some 3%nat)
    (booking_flight origin destination outbound_date return_date).


(** A tool call decided by the remote model during [agent.run]. *)
Inductive ToolCall : Type :=
  | CallHotel (query check_in_date check_out_date : string)
  | CallFlight (origin destination outbound_date return_date : string).

(** Modelled from the spec: while awaiting a response the framework
    resolves the tool calls the model asks for, in the order the model
    chooses; the outcome of a call (a value, or an error) goes back to the
    model and the turn continues.  This loop is not among the sources. *)
Definition resolve (c : ToolCall) (w : World) : World :=
  match c with
  | CallHotel q i o => snd (booking_hotel_tool q i o w)
  | CallFlight a b d r => snd (booking_flight_tool a b d r w)
  end.

Definition resolve_all (calls : list ToolCall) (w : World) : World :=
  foldl (λ w c, resolve c w) w calls.

Definition is_hotel_request (r : Request) : bool :=
  match dict_lookup (params r) "engine" with
  | Some (Some e) => String.eqb e "google_hotels"
  | _ => false
  end.

Definition hotel_requests (w : World) : list Request :=
  List.filter is_hotel_request (sent w).

End Sample04.

(** ** Vocabulary of the statements *)

(** The requests a computation adds to the ones already sent. *)
Definition issued {A : Type} (m : M A) (w : World) : list Request :=
  drop (length (sent w)) (sent (snd (m w))).

(** What a computation prints. *)
Definition printed {A : Type} (m : M A) (w : World) : list Printed :=
  drop (length (stdout w)) (stdout (snd (m w))).

Definition base_url (w : World) : string :=
  or_else (environ w !! "SERP_API_BASE_URL") Sample04.default_base_url.

Definition hotel_request (w : World) (query check_in_date check_out_date : string)
  : Request :=
  GET (base_url w)
      [("engine", Some "google_hotels"); ("q", Some query);
       ("check_in_date", Some check_in_date);
       ("check_out_date", Some check_out_date);
       ("adults", Some "1"); ("currency", Some "USD"); ("gl", Some "us");
       ("hl", Some "en"); ("api_key", environ w !! "SERP_API_KEY")].

Definition outbound_request (w : World)
    (origin destination outbound_date return_date : string) : Request :=
  GET (base_url w)
      (Sample04.go_params (environ w !! "SERP_API_KEY")
         origin destination outbound_date return_date).

Definition return_request (w : World)
    (origin destination outbound_date return_date : string) : Request :=
  GET (base_url w)
      (Sample04.back_params (environ w !! "SERP_API_KEY")
         origin destination outbound_date return_date).

(** [needle] occurs in [hay]; [a] occurs in [hay] and [b] after it. *)
Definition occurs (needle hay : string) : Prop :=
  ∃ pre post, hay = pre +:+ needle +:+ post.

Definition occurs_then (a b hay : string) : Prop :=
  ∃ pre mid post, hay = pre +:+ a +:+ mid +:+ b +:+ post.

Definition outbound_marker : string := "# outbound " +:+ LF +:+ " ".
Definition return_marker : string := LF +:+ " # return " +:+ LF.

Definition randint_in_range (randint : Z → Z → Z) : Prop :=
  ∀ a b, a ≤ b → a ≤ randint a b ≤ b.

(** A world at the start of a run: nothing sent or printed yet, the base
    URL set to [base] or left unset, and a search API behaving as
    [answer]. *)
Definition mock_world (base : option string)
    (answer : list Request → Request → result Response) : World :=
  {| environ := match base with
                | Some u => {[ "SERP_API_BASE_URL" := u ]}
                | None => ∅
                end;
     network := answer; sent := []; stdout := []; invocation_count := ∅ |}.

Definition http (status : Z) (body : option pyval) : result Response :=
  Ok {| status_code := status; json_body := body |}.

(** Answers [first] to the first request and [second] to every later one. *)
Definition in_turn (first second : result Response)
  : list Request → Request → result Response :=
  λ before _, match before with [] => first | _ => second end.

(** What one leg of [booking_flight] adds to the result: nothing for a
    status other than 200, the marker and the printed body for a 200 whose
    body parses. *)
Definition leg (marker : string) (r : Response) : result string :=
  if status_code r =? 200
  then match json_body r with
       | Some j => Ok (marker +:+ str j)
       | None => Raise JSONDecodeError
       end
  else Ok EmptyString.

(** The two parameters that tell the legs of a flight search apart. *)
Definition is_leg_key (kv : string * option string) : bool :=
  String.eqb kv.1 "departure_id" || String.eqb kv.1 "arrival_id".

(** How many more runs of [booking_hotel] the cap of 3 leaves. *)
Definition hotel_runs_left (w : World) : nat :=
  3 - default 0%nat (invocation_count w !! "booking_hotel").

(** ** Worlds and values of the examples *)

(** The search API answers 503 to everything. *)
Definition unavailable : World :=
  mock_world None (λ _ _, http 503 None).

(** A proxy that answers 200 with a page that is not JSON. *)
Definition captive_portal : World :=
  mock_world None (λ _ _, http 200 None).

Definition one_fare : pyval :=
  PDict [("best_flights",
          PList [PDict [("airline", PStr "British Airways"); ("price", PInt 612)]])].

(** An outbound answer whose body quotes the words of the return marker. *)
Definition fare_note : pyval :=
  PDict [("note", PStr "# return flights are priced separately")].

Definition fare_note_world : World :=
  mock_world None (in_turn (http 200 (Some fare_note)) (http 503 None)).

(** No route to the search API: every request raises. *)
Definition unreachable : World :=
  mock_world None (λ _ _, Raise ConnectionError).

Definition hotel_offers : pyval :=
  PDict [("search_metadata", PDict [("status", PStr "Success")]);
         ("properties",
          PList [PDict [("name", PStr "Hilton London Metropole");
                        ("hotel_class", PInt 4)]])].


(** Of the ten outcomes 0..9 of [randint(0, 9)], how many make the picker
    [pick] return the destination [d]: its chances out of ten. *)
Definition chances (pick : (Z → Z → Z) → result string) (d : string) : nat :=
  length (List.filter
            (λ n, match pick (λ _ _, n) with
                  | Ok s => String.eqb s d
                  | Raise _ => false
                  end)
            (seqZ 0 10)).

(** ** Further vocabulary and examples *)

(** [s] begins with [p]. *)
Definition starts_with (p s : string) : Prop :=
  ∃ rest, s = p +:+ rest.

(** How many more runs of [booking_flight] the cap of 3 leaves. *)
Definition flight_runs_left (w : World) : nat :=
  3 - default 0%nat (invocation_count w !! "booking_flight").

(** A 200 answer of the search API that reports an error and has no
    [properties] field. *)
Definition no_results : pyval :=
  PDict [("search_metadata", PDict [("status", PStr "Success")]);
         ("error", PStr "Google Hotels hasn't returned any results for this query.")].

(** The outbound leg is answered, then the connection drops. *)
Definition dropped_after_outbound : World :=
  mock_world None (in_turn (http 200 (Some one_fare)) (Raise ConnectionError)).

(** A world in which the API key is configured. *)
Definition with_api_key : World :=
  {| environ := {[ "SERP_API_KEY" := "secret-key-123" ]};
     network := λ _ _, http 503 None;
     sent := []; stdout := []; invocation_count := ∅ |}.


Definition tool_call_first_reply : AgentRunResponse :=
  {| messages :=
       [ {| contents := [FunctionCallContent "get_random_destination";
                         TextContent "Here is a plan for Paris."] |} ];
     text := "Here is a plan for Paris." |}.

(** ** Running the tools *)

Example repr_dict :
  str (PDict [("price", PInt 412); ("stops", PList [PStr "LHR"; PNone])])
  = "{'price': 412, 'stops': ['LHR', None]}".
Proof. vm_compute. reflexivity. Qed.

Ltac run :=
  unfold mbind, M_bind, mret, M_ret, os_environ_get, print, requests_get,
    response_json, lift, raise; cbn [fst snd sent stdout environ network
    invocation_count status_code json_body].

Lemma append_cons (c : Ascii.ascii) (s t : string) :
  String c s +:+ t = String c (s +:+ t).
Proof. reflexivity. Qed.

Lemma append_nil_l (s : string) : EmptyString +:+ s = s.
Proof. reflexivity. Qed.

Lemma append_nil_r (s : string) : s +:+ EmptyString = s.
Proof. induction s as [|c s IH]; [done|]. by rewrite append_cons, IH. Qed.

Lemma append_assoc (s t u : string) : (s +:+ t) +:+ u = s +:+ t +:+ u.
Proof. induction s as [|c s IH]; [done|]. by rewrite !append_cons, IH. Qed.

Lemma drop_sent_1 (l : list Request) (a : Request) :
  drop (length l) (l ++ [a]) = [a].
Proof. by rewrite drop_app_length. Qed.

Lemma drop_sent_2 (l : list Request) (a b : Request) :
  drop (length l) ((l ++ [a]) ++ [b]) = [a; b].
Proof. by rewrite <- app_assoc, drop_app_length. Qed.

Section Flight.
Variables (w : World) (origin destination outbound_date return_date : string).

Let out := outbound_request w origin destination outbound_date return_date.
Let ret := return_request w origin destination outbound_date return_date.
Let flight := Sample04.booking_flight origin destination outbound_date return_date.

(** The outbound request raises: the call ends there. *)
Lemma flight_outbound_raises e :
  network w (sent w) out = Raise e →
  fst (flight w) = Raise e ∧ issued flight w = [out].
Proof.
  subst out flight. unfold outbound_request, base_url.
  intros H. unfold issued, Sample04.booking_flight. run.
  rewrite H. cbn. split; [done|]. apply drop_sent_1.
Qed.

(** The outbound body does not parse: the call ends there too. *)
Lemma flight_outbound_unparsed r1 e :
  network w (sent w) out = Ok r1 →
  leg outbound_marker r1 = Raise e →
  fst (flight w) = Raise e ∧ issued flight w = [out].
Proof.
  subst out flight. unfold outbound_request, base_url, leg.
  intros H He. unfold issued, Sample04.booking_flight. run.
  rewrite H. destruct (status_code r1 =? 200); [|done].
  destruct (json_body r1); [done|]. injection He as <-. cbn.
  split; [done|]. apply drop_sent_1.
Qed.

(** Otherwise the return request is sent, whatever the outbound status. *)
Lemma flight_return_leg r1 s1 :
  network w (sent w) out = Ok r1 →
  leg outbound_marker r1 = Ok s1 →
  fst (flight w)
  = match network w (sent w ++ [out]) ret with
    | Ok r2 => match leg return_marker r2 with
               | Ok s2 => Ok (s1 +:+ s2)
               | Raise e => Raise e
               end
    | Raise e => Raise e
    end
  ∧ issued flight w = [out; ret].
Proof.
  subst out ret flight. unfold outbound_request, return_request, base_url, leg.
  intros H Hs. unfold issued, Sample04.booking_flight. run.
  rewrite H.
  destruct (status_code r1 =? 200).
  - destruct (json_body r1) as [j1|]; [|done]. injection Hs as <-. cbn.
    destruct (network w (sent w ++ _) _) as [r2|e]; cbn.
    + destruct (status_code r2 =? 200); cbn.
      * destruct (json_body r2) as [j2|]; cbn;
          (split; [reflexivity|]); apply drop_sent_2.
      * split; [|apply drop_sent_2].
        by rewrite append_nil_r.
    + split; [done|]. apply drop_sent_2.
  - injection Hs as <-. cbn.
    destruct (network w (sent w ++ _) _) as [r2|e]; cbn.
    + destruct (status_code r2 =? 200); cbn.
      * destruct (json_body r2) as [j2|]; cbn;
          (split; [reflexivity|]); apply drop_sent_2.
      * split; [done|]. apply drop_sent_2.
    + split; [done|]. apply drop_sent_2.
Qed.

End Flight.

Section Hotel.
Variables (w : World) (query check_in_date check_out_date : string).

Let req := hotel_request w query check_in_date check_out_date.
Let hotel := Sample04.booking_hotel query check_in_date check_out_date.

Lemma hotel_run :
  fst (hotel w)
  = match network w (sent w) req with
    | Ok r =>
        if status_code r =? 200
        then match json_body r with
             | Some j => getitem_str j "properties"
             | None => Raise JSONDecodeError
             end
        else Ok (PStr "request failed")
    | Raise e => Raise e
    end
  ∧ issued hotel w = [req].
Proof.
  subst req hotel. unfold hotel_request, base_url.
  unfold issued, Sample04.booking_hotel. run.
  destruct (network w (sent w) _) as [r|e]; cbn.
  - destruct (status_code r =? 200); cbn.
    + destruct (json_body r) as [j|]; cbn; (split; [done|]); apply drop_sent_1.
    + split; [done|]. apply drop_sent_1.
  - split; [done|]. apply drop_sent_1.
Qed.

End Hotel.

Lemma leg_cases (marker : string) (r : Response) :
  (status_code r ≠ 200 ∧ leg marker r = Ok EmptyString)
  ∨ (status_code r = 200 ∧ json_body r = None
     ∧ leg marker r = Raise JSONDecodeError)
  ∨ (∃ j, status_code r = 200 ∧ json_body r = Some j
          ∧ leg marker r = Ok (marker +:+ str j)).
Proof.
  unfold leg. destruct (Z.eqb_spec (status_code r) 200) as [E|E].
  - destruct (json_body r) as [j|]; [right; right; by exists j|right; left; done].
  - by left.
Qed.

Lemma leg_not_200 (marker : string) (r : Response) :
  status_code r ≠ 200 → leg marker r = Ok EmptyString.
Proof. intros H. unfold leg. by destruct (Z.eqb_spec (status_code r) 200). Qed.

Lemma leg_200 (marker : string) (r : Response) (j : pyval) :
  status_code r = 200 → json_body r = Some j →
  leg marker r = Ok (marker +:+ str j).
Proof. intros H1 H2. unfold leg. by rewrite H1, H2. Qed.

(** The requests of one call to [booking_flight]: the outbound one, and
    the return one unless the outbound leg raised. *)
Lemma flight_issued (w : World) (o d od rd : string) :
  issued (Sample04.booking_flight o d od rd) w = [outbound_request w o d od rd]
  ∨ issued (Sample04.booking_flight o d od rd) w
    = [outbound_request w o d od rd; return_request w o d od rd].
Proof.
  destruct (network w (sent w) (outbound_request w o d od rd)) as [r1|e] eqn:H.
  - destruct (leg outbound_marker r1) as [s1|e] eqn:Hl.
    + right. eapply flight_return_leg; eauto.
    + left. eapply flight_outbound_unparsed; eauto.
  - left. eapply flight_outbound_raises; eauto.
Qed.

(** ** The destination picker *)

Lemma list_getitem_in_range {A : Type} (l : list A) (i : Z) :
  0 ≤ i < Z.of_nat (length l) →
  ∃ x, l !! Z.to_nat i = Some x ∧ list_getitem l i = Ok x.
Proof.
  intros H. unfold list_getitem.
  destruct (Z.ltb_spec i 0) as [?|_]; [lia|].
  destruct (Z.leb_spec 0 i) as [_|?]; [|lia].
  destruct (Z.ltb_spec i (Z.of_nat (length l))) as [_|?]; [|lia].
  cbn. destruct (l !! Z.to_nat i) as [x|] eqn:E; [by exists x|].
  apply lookup_ge_None in E. lia.
Qed.

Lemma ten_cases (n : Z) :
  0 ≤ n ≤ 9 →
  n = 0 ∨ n = 1 ∨ n = 2 ∨ n = 3 ∨ n = 4 ∨ n = 5 ∨ n = 6 ∨ n = 7 ∨ n = 8 ∨ n = 9.
Proof. lia. Qed.

(** [k] is the one draw that yields the destination of the goal. *)
Ltac the_draw k :=
  exists k; split; [split; [lia|reflexivity]|];
  let n' := fresh "n" in
  let Hn := fresh "Hn" in
  let Hg := fresh "Hg" in
  intros n' [Hn Hg]; apply ten_cases in Hn;
  repeat (destruct Hn as [->|Hn]); try subst n';
  first [reflexivity | vm_compute in Hg; discriminate Hg].

(** C5: [get_random_destination] draws once, [randint(0, 9)], and returns
    the destination at the index drawn: always one of the ten listed, and
    never a failure; the two samples define the same function.  Seen as a
    function of the number drawn, it maps the ten equally likely outcomes
    0..9 one-to-one onto the ten destinations (ten entries, none twice,
    each returned for exactly one outcome), so each destination has one
    chance out of ten. *)
Theorem C5_get_random_destination_uniform (randint : Z → Z → Z) :
  randint_in_range randint →
  (∃ s, s ∈ Sample01.destinations
        ∧ Sample01.destinations !! Z.to_nat (randint 0 9) = Some s
        ∧ Sample01.get_random_destination randint = Ok s)
  ∧ 0 ≤ randint 0 9 ≤ 9
  ∧ Sample01.get_random_destination randint
    = Sample01.get_random_destination (λ _ _, randint 0 9)
  ∧ Sample03.get_random_destination randint
    = Sample01.get_random_destination randint
  ∧ length Sample01.destinations = 10%nat
  ∧ NoDup Sample01.destinations
  ∧ Forall (λ s, ∃ n, (0 ≤ n ≤ 9
                       ∧ Sample01.get_random_destination (λ _ _, n) = Ok s)
                      ∧ ∀ n', 0 ≤ n' ≤ 9
                              ∧ Sample01.get_random_destination (λ _ _, n')
                                = Ok s
                              → n' = n)
           Sample01.destinations
  ∧ Forall (λ s, chances Sample01.get_random_destination s = 1%nat
                 ∧ chances Sample03.get_random_destination s = 1%nat)
           Sample01.destinations.
Proof.
  intros Hr.
  destruct (Hr 0 9) as [H0 H9]; [lia|].
  repeat apply conj; try reflexivity.
  - unfold Sample01.get_random_destination.
    change (Z.of_nat (length Sample01.destinations) - 1) with 9.
    destruct (list_getitem_in_range Sample01.destinations (randint 0 9))
      as (s & Hs & ->); [cbn; lia|].
    exists s. split; [|done]. eapply list_elem_of_lookup_2, Hs.
  - exact H0.
  - exact H9.
  - apply (bool_decide_unpack _). vm_compute. exact I.
  - unfold Sample01.destinations.
    repeat (apply Forall_cons; split); [..|by apply Forall_nil];
      first [ the_draw 0%Z | the_draw 1%Z | the_draw 2%Z | the_draw 3%Z | the_draw 4%Z
            | the_draw 5%Z | the_draw 6%Z | the_draw 7%Z | the_draw 8%Z | the_draw 9%Z ].
  - unfold Sample01.destinations.
    repeat (apply Forall_cons; split); [..|by apply Forall_nil];
      split; vm_compute; reflexivity.
Qed.

Lemma C5_get_random_destination_uniform_witness :
  randint_in_range (λ a _, a)
  ∧ ∃ s, s ∈ Sample01.destinations
         ∧ Sample01.destinations !! Z.to_nat 0 = Some s
         ∧ Sample01.get_random_destination (λ a _, a) = Ok s.
Proof.
  assert (H : randint_in_range (λ a _ : Z, a)) by (intros a b; lia).
  split; [exact H|].
  exact (proj1 (C5_get_random_destination_uniform (λ a _, a) H)).
Defined.

(** ** The flight lookup *)

(** C9: when both legs are answered with a status other than 200,
    [booking_flight] returns the empty string: no failure marker of any
    kind is put in the result. *)
Theorem C9_flight_both_legs_fail (w : World) (o d od rd : string)
    (r1 r2 : Response) :
  network w (sent w) (outbound_request w o d od rd) = Ok r1 →
  network w (sent w ++ [outbound_request w o d od rd])
    (return_request w o d od rd) = Ok r2 →
  status_code r1 ≠ 200 →
  status_code r2 ≠ 200 →
  fst (Sample04.booking_flight o d od rd w) = Ok EmptyString.
Proof.
  intros H1 H2 S1 S2.
  destruct (flight_return_leg w o d od rd r1 EmptyString H1) as [-> _].
  - by apply leg_not_200.
  - rewrite H2. by rewrite (leg_not_200 _ _ S2).
Qed.

Lemma C9_flight_both_legs_fail_witness :
  fst (Sample04.booking_flight "JFK" "LHR" "2026-02-20" "2026-02-27" unavailable)
  = Ok EmptyString.
Proof.
  apply (C9_flight_both_legs_fail unavailable "JFK" "LHR" "2026-02-20"
           "2026-02-27" {| status_code := 503; json_body := None |}
           {| status_code := 503; json_body := None |});
    [reflexivity | reflexivity | discriminate | discriminate].
Defined.

(** C10: the return-leg request that [booking_flight] sends carries the
    same [outbound_date] and [return_date] as the outbound-leg request it
    sent before; between the two requests only the values of
    [departure_id] and [arrival_id] are exchanged, every other parameter
    and the URL being the same.  That second request is sent in every call
    whose outbound leg does not raise, and a call sends nothing after
    it. *)
Theorem C10_flight_return_leg_same_dates (w : World) (o d od rd : string) :
  (∀ r1,
     network w (sent w) (outbound_request w o d od rd) = Ok r1 →
     (status_code r1 = 200 → is_Some (json_body r1)) →
     length (issued (Sample04.booking_flight o d od rd) w) = 2%nat)
  ∧ (∀ q1 q2 rest,
       issued (Sample04.booking_flight o d od rd) w = q1 :: q2 :: rest →
       rest = []
       ∧ url q2 = url q1
       ∧ dict_lookup (params q1) "outbound_date" = Some (Some od)
       ∧ dict_lookup (params q2) "outbound_date" = Some (Some od)
       ∧ dict_lookup (params q1) "return_date" = Some (Some rd)
       ∧ dict_lookup (params q2) "return_date" = Some (Some rd)
       ∧ dict_lookup (params q1) "departure_id" = Some (Some o)
       ∧ dict_lookup (params q1) "arrival_id" = Some (Some d)
       ∧ dict_lookup (params q2) "departure_id"
         = dict_lookup (params q1) "arrival_id"
       ∧ dict_lookup (params q2) "arrival_id"
         = dict_lookup (params q1) "departure_id"
       ∧ (params q2).*1 = (params q1).*1
       ∧ List.filter (λ kv, negb (is_leg_key kv)) (params q2)
         = List.filter (λ kv, negb (is_leg_key kv)) (params q1)).
Proof.
  split.
  - intros r1 H1 Hj.
    destruct (leg_cases outbound_marker r1)
      as [[_ E]|[(S & N & _)|(j & _ & _ & E)]].
    + by destruct (flight_return_leg w o d od rd r1 _ H1 E) as [_ ->].
    + destruct (Hj S) as [j Hjj]. congruence.
    + by destruct (flight_return_leg w o d od rd r1 _ H1 E) as [_ ->].
  - intros q1 q2 rest H.
    destruct (flight_issued w o d od rd) as [E | E]; rewrite E in H;
      [discriminate H|].
    injection H as <- <- <-. repeat split.
Qed.

Lemma C10_flight_return_leg_same_dates_witness :
  ∃ q1 q2,
    issued (Sample04.booking_flight "JFK" "LHR" "2026-02-20" "2026-02-27")
      unavailable = [q1; q2]
    ∧ dict_lookup (params q2) "outbound_date" = Some (Some "2026-02-20")
    ∧ dict_lookup (params q2) "return_date" = Some (Some "2026-02-27")
    ∧ dict_lookup (params q2) "departure_id" = Some (Some "LHR")
    ∧ dict_lookup (params q2) "arrival_id" = Some (Some "JFK").
Proof.
  destruct (C10_flight_return_leg_same_dates unavailable
              "JFK" "LHR" "2026-02-20" "2026-02-27") as [Two Same].
  pose proof (Two {| status_code := 503; json_body := None |} eq_refl
                ltac:(discriminate)) as L.
  destruct (issued (Sample04.booking_flight "JFK" "LHR" "2026-02-20" "2026-02-27")
              unavailable) as [|q1 [|q2 rest]] eqn:E;
    [discriminate L | discriminate L |].
  destruct (Same q1 q2 rest eq_refl)
    as (-> & _ & _ & Hod & _ & Hrd & Hdep & Harr & Hd2 & Ha2 & _).
  exists q1, q2. repeat split; congruence.
Defined.

(** C6, as the code has it: when the outbound leg does not raise (its
    request is answered and, at status 200, the body parses as JSON),
    exactly two GET requests are issued, one after the other, to the same
    URL: the first with departure [origin] and arrival [destination], the
    second with departure [destination] and arrival [origin], each with
    currency USD and language en. *)
Theorem C6_flight_two_requests (w : World) (o d od rd : string) (r1 : Response) :
  network w (sent w) (outbound_request w o d od rd) = Ok r1 →
  (status_code r1 = 200 → is_Some (json_body r1)) →
  ∃ q1 q2,
    issued (Sample04.booking_flight o d od rd) w = [q1; q2]
    ∧ url q1 = base_url w ∧ url q2 = base_url w
    ∧ dict_lookup (params q1) "departure_id" = Some (Some o)
    ∧ dict_lookup (params q1) "arrival_id" = Some (Some d)
    ∧ dict_lookup (params q2) "departure_id" = Some (Some d)
    ∧ dict_lookup (params q2) "arrival_id" = Some (Some o)
    ∧ dict_lookup (params q1) "currency" = Some (Some "USD")
    ∧ dict_lookup (params q1) "hl" = Some (Some "en")
    ∧ dict_lookup (params q2) "currency" = Some (Some "USD")
    ∧ dict_lookup (params q2) "hl" = Some (Some "en").
Proof.
  intros H1 Hj.
  exists (outbound_request w o d od rd), (return_request w o d od rd).
  split; [|repeat split].
  destruct (leg_cases outbound_marker r1) as [[_ E]|[(S & N & _)|(j & _ & _ & E)]].
  - by eapply flight_return_leg.
  - destruct (Hj S) as [j Hjj]. congruence.
  - by eapply flight_return_leg.
Qed.

Lemma C6_flight_two_requests_witness :
  length (issued (Sample04.booking_flight "JFK" "LHR" "2026-02-20" "2026-02-27")
            unavailable) = 2%nat.
Proof.
  destruct (C6_flight_two_requests unavailable "JFK" "LHR" "2026-02-20"
              "2026-02-27" {| status_code := 503; json_body := None |})
    as (q1 & q2 & -> & _); [reflexivity | discriminate | reflexivity].
Defined.

(** C6, as stated, fails: an outbound answer of status 200 whose body is
    not JSON ends the call in [JSONDecodeError] after one request. *)
Lemma C6_flight_one_request_counterexample :
  fst (Sample04.booking_flight "JFK" "LHR" "2026-02-20" "2026-02-27"
         captive_portal) = Raise JSONDecodeError
  ∧ length (issued (Sample04.booking_flight "JFK" "LHR" "2026-02-20" "2026-02-27")
              captive_portal) = 1%nat.
Proof. split; vm_compute; reflexivity. Qed.

(** ** Occurrences of the section markers *)

Lemma occurs_cons_ne (c n0 : Ascii.ascii) (rest hay : string) :
  c ≠ n0 → occurs (String n0 rest) (String c hay) → occurs (String n0 rest) hay.
Proof.
  intros Hne (pre & post & E). destruct pre as [|c' pre].
  - rewrite append_nil_l, append_cons in E. congruence.
  - rewrite append_cons in E. injection E as _ E. by exists pre, post.
Qed.

Lemma occurs_app_r (needle pre hay : string) :
  occurs needle hay → occurs needle (pre +:+ hay).
Proof.
  intros (p & q & ->). exists (pre +:+ p), q. by rewrite append_assoc.
Qed.

Lemma occurs_app_l (needle hay post : string) :
  occurs needle hay → occurs needle (hay +:+ post).
Proof.
  intros (p & q & ->). exists p, (q +:+ post). by rewrite !append_assoc.
Qed.

(** The outbound marker neither holds nor starts the return marker. *)
Lemma return_marker_not_from_outbound (t : string) :
  occurs "# return" (outbound_marker +:+ t) → occurs "# return" t.
Proof.
  intros H.
  assert (H0 : occurs "# return" (" outbound " +:+ LF +:+ " " +:+ t)).
  { destruct H as (pre & post & E). destruct pre as [|c pre].
    - rewrite append_nil_l in E. vm_compute in E. discriminate E.
    - change (outbound_marker +:+ t)
        with (String "#"%char (" outbound " +:+ LF +:+ " " +:+ t)) in E.
      rewrite append_cons in E. injection E as _ E. by exists pre, post. }
  clear H.
  repeat (apply occurs_cons_ne in H0; [|discriminate]).
  exact H0.
Qed.

(** C4, as the code has it.  Both legs are sent whenever the outbound leg
    is answered; of answers whose 200 bodies parse as JSON:
    - both legs 200: the result is the outbound section then the return
      section, so ["# outbound"] occurs and ["# return"] after it;
    - only the outbound leg 200: the result is the outbound section alone,
      the tool inserts no return marker, and ["# return"] occurs in the
      result only if it occurs in the printed outbound body;
    - only the return leg 200: the result is the return section alone, the
      failed outbound leg adds nothing and does not stop the return leg. *)
Theorem C4_flight_sections (w : World) (o d od rd : string) (r1 r2 : Response) :
  network w (sent w) (outbound_request w o d od rd) = Ok r1 →
  network w (sent w ++ [outbound_request w o d od rd])
    (return_request w o d od rd) = Ok r2 →
  (∀ j1 j2,
     status_code r1 = 200 → json_body r1 = Some j1 →
     status_code r2 = 200 → json_body r2 = Some j2 →
     ∃ s, fst (Sample04.booking_flight o d od rd w) = Ok s
          ∧ s = (outbound_marker +:+ str j1) +:+ (return_marker +:+ str j2)
          ∧ occurs_then "# outbound" "# return" s)
  ∧ (∀ j1,
       status_code r1 = 200 → json_body r1 = Some j1 →
       status_code r2 ≠ 200 →
       ∃ s, fst (Sample04.booking_flight o d od rd w) = Ok s
            ∧ s = outbound_marker +:+ str j1
            ∧ occurs "# outbound" s
            ∧ (occurs "# return" s → occurs "# return" (str j1)))
  ∧ (∀ j2,
       status_code r1 ≠ 200 →
       status_code r2 = 200 → json_body r2 = Some j2 →
       fst (Sample04.booking_flight o d od rd w) = Ok (return_marker +:+ str j2)).
Proof.
  intros H1 H2. split; [|split].
  - intros j1 j2 S1 J1 S2 J2.
    destruct (flight_return_leg w o d od rd r1 _ H1 (leg_200 _ _ _ S1 J1))
      as [-> _].
    rewrite H2, (leg_200 _ _ _ S2 J2). eexists. split; [done|split; [done|]].
    exists EmptyString, (" " +:+ LF +:+ " " +:+ str j1 +:+ LF +:+ " "),
      (" " +:+ LF +:+ str j2).
    unfold outbound_marker, return_marker.
    by rewrite !append_assoc.
  - intros j1 S1 J1 S2.
    destruct (flight_return_leg w o d od rd r1 _ H1 (leg_200 _ _ _ S1 J1))
      as [-> _].
    rewrite H2, (leg_not_200 _ _ S2), append_nil_r.
    eexists. split; [done|split; [done|split]].
    + exists EmptyString, (" " +:+ LF +:+ " " +:+ str j1).
      unfold outbound_marker. by rewrite !append_assoc.
    + apply return_marker_not_from_outbound.
  - intros j2 S1 S2 J2.
    destruct (flight_return_leg w o d od rd r1 _ H1 (leg_not_200 _ _ S1))
      as [-> _].
    by rewrite H2, (leg_200 _ _ _ S2 J2).
Qed.

(** Both legs answered 200, then the outbound leg only, then the return
    leg only. *)
Lemma C4_flight_sections_witness :
  (∃ s, fst (Sample04.booking_flight "JFK" "LHR" "2026-02-20" "2026-02-27"
               (mock_world None (λ _ _, http 200 (Some one_fare)))) = Ok s
        ∧ occurs_then "# outbound" "# return" s)
  ∧ (∃ s, fst (Sample04.booking_flight "JFK" "LHR" "2026-02-20" "2026-02-27"
                 (mock_world None
                    (in_turn (http 200 (Some one_fare)) (http 503 None))))
          = Ok s
          ∧ occurs "# outbound" s)
  ∧ fst (Sample04.booking_flight "JFK" "LHR" "2026-02-20" "2026-02-27"
           (mock_world None (in_turn (http 503 None) (http 200 (Some one_fare)))))
    = Ok (return_marker +:+ str one_fare).
Proof.
  split; [|split].
  - destruct (C4_flight_sections
                (mock_world None (λ _ _, http 200 (Some one_fare)))
                "JFK" "LHR" "2026-02-20" "2026-02-27"
                {| status_code := 200; json_body := Some one_fare |}
                {| status_code := 200; json_body := Some one_fare |}
                eq_refl eq_refl) as (Both & _ & _).
    destruct (Both one_fare one_fare eq_refl eq_refl eq_refl eq_refl)
      as (s & Hs & _ & Ho).
    by exists s.
  - destruct (C4_flight_sections
                (mock_world None
                   (in_turn (http 200 (Some one_fare)) (http 503 None)))
                "JFK" "LHR" "2026-02-20" "2026-02-27"
                {| status_code := 200; json_body := Some one_fare |}
                {| status_code := 503; json_body := None |}
                eq_refl eq_refl) as (_ & Only & _).
    destruct (Only one_fare eq_refl eq_refl) as (s & Hs & _ & Ho & _);
      [discriminate|].
    by exists s.
  - destruct (C4_flight_sections
                (mock_world None
                   (in_turn (http 503 None) (http 200 (Some one_fare))))
                "JFK" "LHR" "2026-02-20" "2026-02-27"
                {| status_code := 503; json_body := None |}
                {| status_code := 200; json_body := Some one_fare |}
                eq_refl eq_refl) as (_ & _ & Back).
    apply (Back one_fare); [discriminate|reflexivity|reflexivity].
Defined.

(** C4, as stated, fails: only the outbound leg is answered 200, and the
    result still holds ["# return"], carried in by the outbound body. *)
Lemma C4_flight_return_marker_counterexample :
  network fare_note_world []
    (outbound_request fare_note_world "JFK" "LHR" "2026-02-20" "2026-02-27")
  = http 200 (Some fare_note)
  ∧ network fare_note_world
      [outbound_request fare_note_world "JFK" "LHR" "2026-02-20" "2026-02-27"]
      (return_request fare_note_world "JFK" "LHR" "2026-02-20" "2026-02-27")
    = http 503 None
  ∧ fst (Sample04.booking_flight "JFK" "LHR" "2026-02-20" "2026-02-27"
           fare_note_world)
    = Ok ("# outbound " +:+ LF
          +:+ " {'note': '# return flights are priced separately'}")
  ∧ occurs "# return"
      ("# outbound " +:+ LF
       +:+ " {'note': '# return flights are priced separately'}").
Proof.
  repeat split; try (vm_compute; reflexivity).
  by exists ("# outbound " +:+ LF +:+ " {'note': '"),
    " flights are priced separately'}".
Qed.

(** ** The base URL of the search API *)

(** C8: when [SERP_API_BASE_URL] is unset or empty, the requests of
    [booking_hotel] and of [booking_flight] go to
    ["https://serpapi.com/search"]; when it is set to a value that is not
    empty, they go to that value.  Each call issues at least one
    request. *)
Theorem C8_base_url_default (w : World) (u : string)
    (q ci co o d od rd : string) :
  ((environ w !! "SERP_API_BASE_URL" = None
    ∨ environ w !! "SERP_API_BASE_URL" = Some EmptyString)
   ∧ u = "https://serpapi.com/search")
  ∨ (environ w !! "SERP_API_BASE_URL" = Some u ∧ u ≠ EmptyString) →
  issued (Sample04.booking_hotel q ci co) w ≠ []
  ∧ Forall (λ r, url r = u) (issued (Sample04.booking_hotel q ci co) w)
  ∧ issued (Sample04.booking_flight o d od rd) w ≠ []
  ∧ Forall (λ r, url r = u) (issued (Sample04.booking_flight o d od rd) w).
Proof.
  intros H.
  assert (Hu : base_url w = u).
  { unfold base_url.
    destruct H as [[[-> | ->] ->] | [-> Hne]]; [done|done|].
    unfold or_else. by destruct (String.eqb_spec u EmptyString). }
  destruct (hotel_run w q ci co) as [_ ->].
  split; [done|]. split; [by repeat constructor|].
  destruct (flight_issued w o d od rd) as [-> | ->];
    (split; [done|by repeat constructor]).
Qed.

Lemma C8_base_url_default_witness :
  Forall (λ r, url r = "https://serpapi.com/search")
    (issued (Sample04.booking_hotel "London" "2026-02-20" "2026-02-27")
       unavailable)
  ∧ Forall (λ r, url r = "http://localhost:8080/search")
      (issued (Sample04.booking_flight "JFK" "LHR" "2026-02-20" "2026-02-27")
         (mock_world (Some "http://localhost:8080/search")
            (λ _ _, http 503 None))).
Proof.
  split.
  - apply (C8_base_url_default unavailable "https://serpapi.com/search"
             "London" "2026-02-20" "2026-02-27"
             "JFK" "LHR" "2026-02-20" "2026-02-27").
    left. split; [left; reflexivity | reflexivity].
  - apply (C8_base_url_default
             (mock_world (Some "http://localhost:8080/search")
                (λ _ _, http 503 None))
             "http://localhost:8080/search"
             "London" "2026-02-20" "2026-02-27"
             "JFK" "LHR" "2026-02-20" "2026-02-27").
    right. split; [reflexivity | discriminate].
Defined.

(** ** What the tools return *)

(** C1, as the code has it.  [get_random_destination] always returns a
    string.  A status other than 200 is never raised: [booking_hotel]
    returns the string ["request failed"] for it, and [booking_flight]
    returns a string when both requests are answered and every answer of
    status 200 has a JSON body.  What goes wrong otherwise is not caught
    and leaves the tool as an exception: an exception of a request
    (of [booking_hotel], or of either leg of [booking_flight]) and a 200
    answer whose body is not JSON (to [booking_hotel], or to either leg of
    [booking_flight]). *)
Theorem C1_tools_return_strings :
  (∀ randint, randint_in_range randint →
     ∃ s, Sample01.get_random_destination randint = Ok s
          ∧ Sample03.get_random_destination randint = Ok s)
  ∧ (∀ w q ci co r,
       network w (sent w) (hotel_request w q ci co) = Ok r →
       status_code r ≠ 200 →
       fst (Sample04.booking_hotel q ci co w) = Ok (PStr "request failed"))
  ∧ (∀ w o d od rd r1 r2,
       network w (sent w) (outbound_request w o d od rd) = Ok r1 →
       network w (sent w ++ [outbound_request w o d od rd])
         (return_request w o d od rd) = Ok r2 →
       (status_code r1 = 200 → is_Some (json_body r1)) →
       (status_code r2 = 200 → is_Some (json_body r2)) →
       ∃ s, fst (Sample04.booking_flight o d od rd w) = Ok s)
  ∧ (∀ w q ci co e,
       network w (sent w) (hotel_request w q ci co) = Raise e →
       fst (Sample04.booking_hotel q ci co w) = Raise e)
  ∧ (∀ w q ci co r,
       network w (sent w) (hotel_request w q ci co) = Ok r →
       status_code r = 200 → json_body r = None →
       fst (Sample04.booking_hotel q ci co w) = Raise JSONDecodeError)
  ∧ (∀ w o d od rd e,
       network w (sent w) (outbound_request w o d od rd) = Raise e →
       fst (Sample04.booking_flight o d od rd w) = Raise e)
  ∧ (∀ w o d od rd r1,
       network w (sent w) (outbound_request w o d od rd) = Ok r1 →
       status_code r1 = 200 → json_body r1 = None →
       fst (Sample04.booking_flight o d od rd w) = Raise JSONDecodeError)
  ∧ (∀ w o d od rd r1 e,
       network w (sent w) (outbound_request w o d od rd) = Ok r1 →
       (status_code r1 = 200 → is_Some (json_body r1)) →
       network w (sent w ++ [outbound_request w o d od rd])
         (return_request w o d od rd) = Raise e →
       fst (Sample04.booking_flight o d od rd w) = Raise e)
  ∧ (∀ w o d od rd r1 r2,
       network w (sent w) (outbound_request w o d od rd) = Ok r1 →
       (status_code r1 = 200 → is_Some (json_body r1)) →
       network w (sent w ++ [outbound_request w o d od rd])
         (return_request w o d od rd) = Ok r2 →
       status_code r2 = 200 → json_body r2 = None →
       fst (Sample04.booking_flight o d od rd w) = Raise JSONDecodeError).
Proof.
  assert (L : ∀ m r, (status_code r = 200 → is_Some (json_body r)) →
                     ∃ s, leg m r = Ok s).
  { intros m r J. destruct (leg_cases m r) as [[_ E]|[(S & N & _)|(j & _ & _ & E)]];
      [by eexists| |by eexists].
    destruct (J S) as [j Hj]. congruence. }
  assert (U : ∀ m r, status_code r = 200 → json_body r = None →
                     leg m r = Raise JSONDecodeError).
  { intros m r S N. unfold leg. by rewrite S, N. }
  repeat apply conj.
  - intros randint Hr. unfold Sample03.get_random_destination,
      Sample01.get_random_destination.
    change Sample03.destinations with Sample01.destinations.
    destruct (Hr 0 (Z.of_nat (length Sample01.destinations) - 1)) as [H0 H9];
      [cbn; lia|].
    destruct (list_getitem_in_range Sample01.destinations
                (randint 0 (Z.of_nat (length Sample01.destinations) - 1)))
      as (s & _ & ->); [lia|].
    by exists s.
  - intros w q ci co r H S. destruct (hotel_run w q ci co) as [-> _].
    rewrite H. by destruct (Z.eqb_spec (status_code r) 200).
  - intros w o d od rd r1 r2 H1 H2 J1 J2.
    destruct (L outbound_marker r1 J1) as [s1 E1].
    destruct (L return_marker r2 J2) as [s2 E2].
    destruct (flight_return_leg w o d od rd r1 s1 H1 E1) as [-> _].
    rewrite H2, E2. by eexists.
  - intros w q ci co e H. destruct (hotel_run w q ci co) as [-> _]. by rewrite H.
  - intros w q ci co r H S N. destruct (hotel_run w q ci co) as [-> _].
    by rewrite H, S, N.
  - intros w o d od rd e H. by apply flight_outbound_raises.
  - intros w o d od rd r1 H S N.
    by apply (flight_outbound_unparsed w o d od rd r1 _ H (U _ _ S N)).
  - intros w o d od rd r1 e H1 J1 H2.
    destruct (L outbound_marker r1 J1) as [s1 E1].
    destruct (flight_return_leg w o d od rd r1 s1 H1 E1) as [-> _].
    by rewrite H2.
  - intros w o d od rd r1 r2 H1 J1 H2 S2 N2.
    destruct (L outbound_marker r1 J1) as [s1 E1].
    destruct (flight_return_leg w o d od rd r1 s1 H1 E1) as [-> _].
    by rewrite H2, (U _ _ S2 N2).
Qed.

Lemma C1_tools_return_strings_witness :
  (∃ s, Sample01.get_random_destination (λ _ b, b) = Ok s
        ∧ Sample03.get_random_destination (λ _ b, b) = Ok s)
  ∧ fst (Sample04.booking_hotel "London" "2026-02-20" "2026-02-27" unavailable)
    = Ok (PStr "request failed")
  ∧ (∃ s, fst (Sample04.booking_flight "JFK" "LHR" "2026-02-20" "2026-02-27"
                 (mock_world None (λ _ _, http 200 (Some one_fare)))) = Ok s)
  ∧ fst (Sample04.booking_hotel "London" "2026-02-20" "2026-02-27" unreachable)
    = Raise ConnectionError
  ∧ fst (Sample04.booking_hotel "London" "2026-02-20" "2026-02-27"
           captive_portal) = Raise JSONDecodeError
  ∧ fst (Sample04.booking_flight "JFK" "LHR" "2026-02-20" "2026-02-27"
           unreachable) = Raise ConnectionError
  ∧ fst (Sample04.booking_flight "JFK" "LHR" "2026-02-20" "2026-02-27"
           captive_portal) = Raise JSONDecodeError
  ∧ fst (Sample04.booking_flight "JFK" "LHR" "2026-02-20" "2026-02-27"
           dropped_after_outbound) = Raise ConnectionError
  ∧ fst (Sample04.booking_flight "JFK" "LHR" "2026-02-20" "2026-02-27"
           (mock_world None (in_turn (http 503 None) (http 200 None))))
    = Raise JSONDecodeError.
Proof.
  destruct C1_tools_return_strings
    as (Pick & Hotel & Flight & HotelE & HotelJ & OutE & OutJ & RetE & RetJ).
  repeat apply conj.
  - apply Pick. intros a b; lia.
  - apply (Hotel unavailable _ _ _ {| status_code := 503; json_body := None |});
      [reflexivity | discriminate].
  - apply (Flight (mock_world None (λ _ _, http 200 (Some one_fare)))
             _ _ _ _
             {| status_code := 200; json_body := Some one_fare |}
             {| status_code := 200; json_body := Some one_fare |});
      [reflexivity | reflexivity | by eexists | by eexists].
  - apply (HotelE unreachable). reflexivity.
  - apply (HotelJ captive_portal _ _ _ {| status_code := 200; json_body := None |});
      reflexivity.
  - apply (OutE unreachable). reflexivity.
  - apply (OutJ captive_portal _ _ _ _ {| status_code := 200; json_body := None |});
      reflexivity.
  - apply (RetE dropped_after_outbound _ _ _ _
             {| status_code := 200; json_body := Some one_fare |});
      [reflexivity | by eexists | reflexivity].
  - apply (RetJ (mock_world None (in_turn (http 503 None) (http 200 None)))
             _ _ _ _ {| status_code := 503; json_body := None |}
             {| status_code := 200; json_body := None |});
      [reflexivity | discriminate | reflexivity | reflexivity | reflexivity].
Defined.

(** C1, as stated, fails: with the search API out of reach the request of
    [booking_hotel] raises, and the tool lets the exception through. *)
Lemma C1_hotel_raises_counterexample :
  fst (Sample04.booking_hotel "London" "2026-02-20" "2026-02-27" unreachable)
  = Raise ConnectionError
  ∧ fst (Sample04.booking_flight "JFK" "LHR" "2026-02-20" "2026-02-27"
           captive_portal) = Raise JSONDecodeError.
Proof. split; vm_compute; reflexivity. Qed.

(** C2 at a 200 answer with a [properties] field: [booking_hotel] returns
    the field as parsed, here a list, and not a string holding its
    serialized content. *)
Theorem C2_hotel_returns_parsed_properties :
  fst (Sample04.booking_hotel "London" "2026-02-20" "2026-02-27"
         (mock_world None (λ _ _, http 200 (Some hotel_offers))))
  = Ok (PList [PDict [("name", PStr "Hilton London Metropole");
                      ("hotel_class", PInt 4)]])
  ∧ is_str (PList [PDict [("name", PStr "Hilton London Metropole");
                          ("hotel_class", PInt 4)]]) = false
  ∧ fst (Sample04.booking_hotel "London" "2026-02-20" "2026-02-27" unavailable)
    = Ok (PStr "request failed").
Proof. repeat split; vm_compute; reflexivity. Qed.

(** ** The invocation cap *)

Lemma flight_world (w : World) (o d od rd : string) :
  invocation_count (snd (Sample04.booking_flight o d od rd w)) = invocation_count w
  ∧ sent (snd (Sample04.booking_flight o d od rd w))
    = sent w ++ issued (Sample04.booking_flight o d od rd) w.
Proof.
  unfold issued, Sample04.booking_flight. run.
  destruct (network w (sent w) _) as [r1|e]; cbn;
    [|by rewrite drop_sent_1].
  destruct (status_code r1 =? 200); cbn.
  - destruct (json_body r1) as [j1|]; cbn; [|by rewrite drop_sent_1].
    destruct (network w (sent w ++ _) _) as [r2|e]; cbn;
      [|by rewrite drop_sent_2, <- app_assoc].
    destruct (status_code r2 =? 200); cbn;
      [destruct (json_body r2) as [j2|]; cbn|];
      by rewrite drop_sent_2, <- app_assoc.
  - destruct (network w (sent w ++ _) _) as [r2|e]; cbn;
      [|by rewrite drop_sent_2, <- app_assoc].
    destruct (status_code r2 =? 200); cbn;
      [destruct (json_body r2) as [j2|]; cbn|];
      by rewrite drop_sent_2, <- app_assoc.
Qed.

Lemma hotel_world (w : World) (q ci co : string) :
  invocation_count (snd (Sample04.booking_hotel q ci co w)) = invocation_count w
  ∧ sent (snd (Sample04.booking_hotel q ci co w))
    = sent w ++ [hotel_request w q ci co].
Proof.
  unfold Sample04.booking_hotel, hotel_request, base_url. run.
  destruct (network w (sent w) _) as [r|e]; cbn; [|done].
  destruct (status_code r =? 200); cbn; [|done].
  by destruct (json_body r) as [j|]; cbn.
Qed.

Lemma resolve_step (c : Sample04.ToolCall) (w : World) :
  (length (Sample04.hotel_requests (Sample04.resolve c w))
   + hotel_runs_left (Sample04.resolve c w)
   ≤ length (Sample04.hotel_requests w) + hotel_runs_left w)%nat.
Proof.
  unfold Sample04.hotel_requests, hotel_runs_left.
  destruct c as [q ci co | o d od rd]; cbn [Sample04.resolve].
  - unfold Sample04.booking_hotel_tool, ai_function.
    destruct (Nat.leb_spec 3 (default 0%nat (invocation_count w !! "booking_hotel")))
      as [Hge|Hlt]; cbn [snd]; [lia|].
    destruct (hotel_world (bump "booking_hotel" w) q ci co) as [-> ->].
    cbn [bump sent invocation_count].
    rewrite List.filter_app, length_app, lookup_insert_eq. cbn. lia.
  - unfold Sample04.booking_flight_tool, ai_function.
    destruct (3 <=? default 0%nat (invocation_count w !! "booking_flight"))%nat;
      cbn [snd]; [lia|].
    destruct (flight_world (bump "booking_flight" w) o d od rd) as [-> ->].
    cbn [bump sent invocation_count].
    rewrite lookup_insert_ne by done.
    rewrite List.filter_app, length_app.
    destruct (flight_issued (bump "booking_flight" w) o d od rd) as [-> | ->];
      cbn; lia.
Qed.

Lemma resolve_all_budget (calls : list Sample04.ToolCall) (w : World) :
  (length (Sample04.hotel_requests (Sample04.resolve_all calls w))
   + hotel_runs_left (Sample04.resolve_all calls w)
   ≤ length (Sample04.hotel_requests w) + hotel_runs_left w)%nat.
Proof.
  revert w. induction calls as [|c calls IH]; intros w; [done|].
  cbn [Sample04.resolve_all foldl]. fold (Sample04.resolve_all calls).
  specialize (IH (Sample04.resolve c w)).
  pose proof (resolve_step c w). unfold Sample04.resolve_all in *. lia.
Qed.

(** C7: whatever tool calls the model asks for, and in whatever order,
    [booking_hotel] runs at most 3 times: at most 3 hotel requests are
    added to the ones sent before. *)
Theorem C7_hotel_invocation_cap (calls : list Sample04.ToolCall) (w : World) :
  (length (Sample04.hotel_requests (Sample04.resolve_all calls w))
   ≤ length (Sample04.hotel_requests w) + 3)%nat.
Proof.
  pose proof (resolve_all_budget calls w) as H.
  unfold hotel_runs_left in H. lia.
Qed.

Example five_hotel_calls :
  length (Sample04.hotel_requests
            (Sample04.resolve_all
               [Sample04.CallHotel "London" "2026-02-20" "2026-02-27";
                Sample04.CallFlight "JFK" "LHR" "2026-02-20" "2026-02-27";
                Sample04.CallHotel "London" "2026-02-20" "2026-02-27";
                Sample04.CallHotel "Paris" "2026-02-20" "2026-02-27";
                Sample04.CallHotel "Berlin" "2026-02-20" "2026-02-27";
                Sample04.CallHotel "Tokyo" "2026-02-20" "2026-02-27"]
               unavailable)) = 3%nat.
Proof. vm_compute. reflexivity. Qed.

(** ** What is displayed of a response *)

Lemma list_getitem_last {A : Type} (l : list A) (x : A) :
  list_getitem (l ++ [x]) (-1) = Ok x.
Proof.
  unfold list_getitem. rewrite length_app. cbn [length].
  destruct (Z.ltb_spec (-1) 0) as [_|?]; [|lia].
  destruct (Z.leb_spec 0 (-1 + Z.of_nat (length l + 1))) as [_|?]; [|lia].
  destruct (Z.ltb_spec (-1 + Z.of_nat (length l + 1)) (Z.of_nat (length l + 1)))
    as [_|?]; [|lia].
  cbn [andb].
  replace (Z.to_nat (-1 + Z.of_nat (length l + 1))) with (length l) by lia.
  by rewrite list_lookup_middle.
Qed.

Lemma list_getitem_first {A : Type} (x : A) (l : list A) :
  list_getitem (x :: l) 0 = Ok x.
Proof.
  unfold list_getitem. cbn [length].
  destruct (Z.ltb_spec 0 (Z.of_nat (S (length l)))) as [_|?]; [done|lia].
Qed.

Lemma drop_app_2 {A : Type} (l : list A) (a b : A) :
  drop (length l) ((l ++ [a]) ++ [b]) = [a; b].
Proof. by rewrite <- app_assoc, drop_app_length. Qed.




(** ** Further properties of the booking tools *)

Lemma drop_app_3 {A : Type} (l : list A) (a b c : A) :
  drop (length l) (((l ++ [a]) ++ [b]) ++ [c]) = [a; b; c].
Proof. by rewrite <- !app_assoc, drop_app_length. Qed.

Lemma drop_app_4 {A : Type} (l : list A) (a b c d : A) :
  drop (length l) ((((l ++ [a]) ++ [b]) ++ [c]) ++ [d]) = [a; b; c; d].
Proof. by rewrite <- !app_assoc, drop_app_length. Qed.

(** X1: every call to [booking_hotel] issues exactly one GET request,
    whatever the answer, an exception included: to the configured base URL,
    with the engine [google_hotels], the three arguments, one adult, USD,
    [gl=us], [hl=en] and the API key of the environment. *)
Theorem hotel_exactly_one_request (w : World) (q ci co : string) :
  issued (Sample04.booking_hotel q ci co) w
  = [GET (base_url w)
       [("engine", Some "google_hotels"); ("q", Some q);
        ("check_in_date", Some ci); ("check_out_date", Some co);
        ("adults", Some "1"); ("currency", Some "USD"); ("gl", Some "us");
        ("hl", Some "en"); ("api_key", environ w !! "SERP_API_KEY")]].
Proof. by destruct (hotel_run w q ci co) as [_ ->]. Qed.

(** X2: at a 200 answer [booking_hotel] returns a value exactly when the
    body is a JSON object with a [properties] key, and the value returned
    is the one under that key. *)
Theorem hotel_200_returns_iff (w : World) (q ci co : string) (r : Response) :
  network w (sent w) (hotel_request w q ci co) = Ok r →
  status_code r = 200 →
  ((∃ v, fst (Sample04.booking_hotel q ci co w) = Ok v)
   ↔ ∃ items v, json_body r = Some (PDict items)
                ∧ dict_lookup items "properties" = Some v)
  ∧ ∀ items v,
      json_body r = Some (PDict items) →
      dict_lookup items "properties" = Some v →
      fst (Sample04.booking_hotel q ci co w) = Ok v.
Proof.
  intros H S. destruct (hotel_run w q ci co) as [-> _].
  rewrite H, S. cbn. split.
  - split.
    + intros [v Hv]. destruct (json_body r) as [[| | | | |?|items]|];
        try discriminate Hv.
      cbn in Hv. destruct (dict_lookup items "properties") as [x|] eqn:E;
        [|discriminate Hv].
      by exists items, x.
    + intros (items & v & -> & E). cbn. rewrite E. by exists v.
  - intros items v -> E. cbn. by rewrite E.
Qed.

Lemma hotel_200_returns_iff_witness :
  fst (Sample04.booking_hotel "London" "2026-02-20" "2026-02-27"
         (mock_world None (λ _ _, http 200 (Some hotel_offers))))
  = Ok (PList [PDict [("name", PStr "Hilton London Metropole");
                      ("hotel_class", PInt 4)]]).
Proof.
  destruct (hotel_200_returns_iff
              (mock_world None (λ _ _, http 200 (Some hotel_offers)))
              "London" "2026-02-20" "2026-02-27"
              {| status_code := 200; json_body := Some hotel_offers |}
              eq_refl eq_refl) as [_ Value].
  eapply Value; reflexivity.
Defined.

(** X3: at a 200 answer without a usable [properties] field
    [booking_hotel] raises: [JSONDecodeError] when the body is not JSON,
    [KeyError('properties')] when it is an object without that key,
    [TypeError] when it is JSON but not an object. *)
Theorem hotel_200_raises (w : World) (q ci co : string) (r : Response) :
  network w (sent w) (hotel_request w q ci co) = Ok r →
  status_code r = 200 →
  (json_body r = None →
   fst (Sample04.booking_hotel q ci co w) = Raise JSONDecodeError)
  ∧ (∀ items, json_body r = Some (PDict items) →
              dict_lookup items "properties" = None →
              fst (Sample04.booking_hotel q ci co w)
              = Raise (KeyError "properties"))
  ∧ (∀ j, json_body r = Some j → (∀ items, j ≠ PDict items) →
          fst (Sample04.booking_hotel q ci co w) = Raise TypeError).
Proof.
  intros H S. destruct (hotel_run w q ci co) as [-> _].
  rewrite H, S. cbn. repeat split.
  - by intros ->.
  - intros items -> E. cbn. by rewrite E.
  - intros j -> Hj. destruct j as [| | | | | |items]; try done.
    by destruct (Hj items).
Qed.

Lemma hotel_200_raises_witness :
  fst (Sample04.booking_hotel "London" "2026-02-20" "2026-02-27" captive_portal)
  = Raise JSONDecodeError
  ∧ fst (Sample04.booking_hotel "London" "2026-02-20" "2026-02-27"
           (mock_world None (λ _ _, http 200 (Some no_results))))
    = Raise (KeyError "properties")
  ∧ fst (Sample04.booking_hotel "London" "2026-02-20" "2026-02-27"
           (mock_world None (λ _ _, http 200 (Some (PList [])))))
    = Raise TypeError.
Proof.
  repeat apply conj.
  - apply (hotel_200_raises captive_portal "London" "2026-02-20" "2026-02-27"
             {| status_code := 200; json_body := None |} eq_refl eq_refl).
    reflexivity.
  - eapply (hotel_200_raises
              (mock_world None (λ _ _, http 200 (Some no_results)))
              "London" "2026-02-20" "2026-02-27"
              {| status_code := 200; json_body := Some no_results |}
              eq_refl eq_refl); reflexivity.
  - eapply (hotel_200_raises
              (mock_world None (λ _ _, http 200 (Some (PList []))))
              "London" "2026-02-20" "2026-02-27"
              {| status_code := 200; json_body := Some (PList []) |}
              eq_refl eq_refl); [reflexivity | discriminate].
Defined.

(** The whole outcome of a call whose two requests are answered. *)
Lemma flight_answered (w : World) (o d od rd : string) (r1 r2 : Response) :
  network w (sent w) (outbound_request w o d od rd) = Ok r1 →
  network w (sent w ++ [outbound_request w o d od rd])
    (return_request w o d od rd) = Ok r2 →
  match leg outbound_marker r1 with
  | Raise e =>
      fst (Sample04.booking_flight o d od rd w) = Raise e
      ∧ printed (Sample04.booking_flight o d od rd) w
        = [Params (Sample04.go_params (environ w !! "SERP_API_KEY") o d od rd)]
  | Ok s1 =>
      match leg return_marker r2 with
      | Raise e =>
          fst (Sample04.booking_flight o d od rd w) = Raise e
          ∧ printed (Sample04.booking_flight o d od rd) w
            = [Params (Sample04.go_params (environ w !! "SERP_API_KEY") o d od rd)]
              ++ (if status_code r1 =? 200 then []
                  else [Line "error with outbound request"])
      | Ok s2 =>
          fst (Sample04.booking_flight o d od rd w) = Ok (s1 +:+ s2)
          ∧ printed (Sample04.booking_flight o d od rd) w
            = [Params (Sample04.go_params (environ w !! "SERP_API_KEY") o d od rd)]
              ++ (if status_code r1 =? 200 then []
                  else [Line "error with outbound request"])
              ++ (if status_code r2 =? 200 then []
                  else [Line "error with return request"])
              ++ [Line (s1 +:+ s2)]
      end
  end.
Proof.
  unfold outbound_request, return_request, base_url, leg.
  intros H1 H2. unfold printed, Sample04.booking_flight. run.
  rewrite H1.
  destruct (status_code r1 =? 200); cbn.
  - destruct (json_body r1) as [j1|]; cbn; [|by rewrite drop_app_length].
    rewrite H2. cbn.
    destruct (status_code r2 =? 200); cbn.
    + destruct (json_body r2) as [j2|]; cbn;
        (split; [reflexivity|]); [apply drop_app_2|by rewrite drop_app_length].
    + rewrite append_nil_r. split; [reflexivity|]. apply drop_app_3.
  - rewrite H2. cbn.
    destruct (status_code r2 =? 200); cbn.
    + destruct (json_body r2) as [j2|]; cbn;
        (split; [reflexivity|]); [apply drop_app_3|apply drop_app_2].
    + split; [reflexivity|]. apply drop_app_4.
Qed.

(** X4: when both requests are answered and [booking_flight] returns [s],
    it has printed, in this order: the outbound parameters, one error line
    for each leg whose status is not 200, and [s] itself. *)
Theorem flight_log (w : World) (o d od rd : string) (r1 r2 : Response)
    (s : string) :
  network w (sent w) (outbound_request w o d od rd) = Ok r1 →
  network w (sent w ++ [outbound_request w o d od rd])
    (return_request w o d od rd) = Ok r2 →
  fst (Sample04.booking_flight o d od rd w) = Ok s →
  printed (Sample04.booking_flight o d od rd) w
  = [Params (Sample04.go_params (environ w !! "SERP_API_KEY") o d od rd)]
    ++ (if status_code r1 =? 200 then []
        else [Line "error with outbound request"])
    ++ (if status_code r2 =? 200 then []
        else [Line "error with return request"])
    ++ [Line s].
Proof.
  intros H1 H2 Hs. pose proof (flight_answered w o d od rd r1 r2 H1 H2) as F.
  destruct (leg outbound_marker r1) as [s1|e]; [|destruct F; congruence].
  destruct (leg return_marker r2) as [s2|e]; [|destruct F; congruence].
  destruct F as [F ->]. rewrite F in Hs. by injection Hs as ->.
Qed.

Lemma flight_log_witness :
  printed (Sample04.booking_flight "JFK" "LHR" "2026-02-20" "2026-02-27")
    unavailable
  = [Params (Sample04.go_params None "JFK" "LHR" "2026-02-20" "2026-02-27");
     Line "error with outbound request";
     Line "error with return request";
     Line EmptyString].
Proof.
  apply (flight_log unavailable "JFK" "LHR" "2026-02-20" "2026-02-27"
           {| status_code := 503; json_body := None |}
           {| status_code := 503; json_body := None |} EmptyString);
    reflexivity.
Defined.

(** X5: every call to [booking_flight] first prints its outbound
    parameters, the API key of the environment among them, before any
    request and whatever happens next; [booking_hotel] prints nothing. *)
Theorem flight_prints_api_key (w : World) (o d od rd q ci co : string) :
  (∃ rest,
     printed (Sample04.booking_flight o d od rd) w
     = Params (Sample04.go_params (environ w !! "SERP_API_KEY") o d od rd)
       :: rest)
  ∧ dict_lookup (Sample04.go_params (environ w !! "SERP_API_KEY") o d od rd)
      "api_key" = Some (environ w !! "SERP_API_KEY")
  ∧ printed (Sample04.booking_hotel q ci co) w = [].
Proof.
  repeat split.
  - unfold printed, Sample04.booking_flight. run.
    destruct (network w (sent w) _) as [r1|e]; cbn;
      [|eexists; by rewrite drop_app_length].
    destruct (status_code r1 =? 200); cbn.
    + destruct (json_body r1) as [j1|]; cbn;
        [|eexists; by rewrite drop_app_length].
      destruct (network w (sent w ++ _) _) as [r2|e]; cbn;
        [|eexists; by rewrite drop_app_length].
      destruct (status_code r2 =? 200); cbn;
        [destruct (json_body r2) as [j2|]; cbn|]; eexists;
        first [apply drop_app_2 | apply drop_app_3 | by rewrite drop_app_length].
    + destruct (network w (sent w ++ _) _) as [r2|e]; cbn;
        [|eexists; apply drop_app_2].
      destruct (status_code r2 =? 200); cbn;
        [destruct (json_body r2) as [j2|]; cbn|]; eexists;
        first [apply drop_app_2 | apply drop_app_3 | apply drop_app_4].
  - unfold printed, Sample04.booking_hotel. run.
    destruct (network w (sent w) _) as [r|e]; cbn; [|apply drop_all].
    destruct (status_code r =? 200); cbn; [|apply drop_all].
    destruct (json_body r) as [j|]; cbn; apply drop_all.
Qed.

(** X6: when the outbound leg has succeeded and the return leg then
    raises (its request fails, or its 200 body is not JSON), the call
    raises that exception: the outbound section is neither returned nor
    printed. *)
Theorem flight_return_failure_loses_outbound (w : World) (o d od rd : string)
    (r1 : Response) (j1 : pyval) (e : exn) :
  network w (sent w) (outbound_request w o d od rd) = Ok r1 →
  status_code r1 = 200 →
  json_body r1 = Some j1 →
  network w (sent w ++ [outbound_request w o d od rd])
    (return_request w o d od rd) = Raise e
  ∨ (∃ r2, network w (sent w ++ [outbound_request w o d od rd])
             (return_request w o d od rd) = Ok r2
           ∧ status_code r2 = 200 ∧ json_body r2 = None
           ∧ e = JSONDecodeError) →
  fst (Sample04.booking_flight o d od rd w) = Raise e
  ∧ printed (Sample04.booking_flight o d od rd) w
    = [Params (Sample04.go_params (environ w !! "SERP_API_KEY") o d od rd)]
  ∧ issued (Sample04.booking_flight o d od rd) w
    = [outbound_request w o d od rd; return_request w o d od rd].
Proof.
  intros H1 S1 J1 [H2 | (r2 & H2 & S2 & J2 & ->)].
  - destruct (flight_return_leg w o d od rd r1 _ H1 (leg_200 _ _ _ S1 J1))
      as [F I].
    rewrite H2 in F. split; [done|]. split; [|done].
    revert H1 H2. unfold outbound_request, return_request, base_url.
    intros H1 H2. unfold printed, Sample04.booking_flight. run.
    rewrite H1, S1, J1. cbn. rewrite H2. cbn. by rewrite drop_app_length.
  - destruct (flight_return_leg w o d od rd r1 _ H1 (leg_200 _ _ _ S1 J1))
      as [F I].
    pose proof (flight_answered w o d od rd r1 r2 H1 H2) as A.
    rewrite (leg_200 _ _ _ S1 J1) in A.
    assert (L : leg return_marker r2 = Raise JSONDecodeError)
      by (unfold leg; by rewrite S2, J2).
    rewrite L in A. destruct A as [A1 A2].
    split; [done|]. split; [|done].
    rewrite A2, S1. reflexivity.
Qed.

Lemma flight_return_failure_loses_outbound_witness :
  fst (Sample04.booking_flight "JFK" "LHR" "2026-02-20" "2026-02-27"
         dropped_after_outbound) = Raise ConnectionError
  ∧ printed (Sample04.booking_flight "JFK" "LHR" "2026-02-20" "2026-02-27")
      dropped_after_outbound
    = [Params (Sample04.go_params None "JFK" "LHR" "2026-02-20" "2026-02-27")].
Proof.
  destruct (flight_return_failure_loses_outbound dropped_after_outbound
              "JFK" "LHR" "2026-02-20" "2026-02-27"
              {| status_code := 200; json_body := Some one_fare |}
              one_fare ConnectionError eq_refl eq_refl eq_refl
              (or_introl eq_refl)) as (F & P & _).
  split; [exact F | exact P].
Defined.

Example api_key_in_stdout :
  printed (Sample04.booking_flight "JFK" "LHR" "2026-02-20" "2026-02-27")
    with_api_key !! 0%nat
  = Some (Params [("engine", Some "google_flights");
                  ("departure_id", Some "JFK"); ("arrival_id", Some "LHR");
                  ("outbound_date", Some "2026-02-20");
                  ("return_date", Some "2026-02-27");
                  ("currency", Some "USD"); ("hl", Some "en");
                  ("api_key", Some "secret-key-123")]).
Proof. vm_compute. reflexivity. Qed.

Lemma append_empty (s t : string) :
  s +:+ t = EmptyString → s = EmptyString ∧ t = EmptyString.
Proof.
  destruct s as [|c s]; [rewrite append_nil_l; by intros ->|].
  rewrite append_cons. discriminate.
Qed.

Lemma leg_empty (marker : string) (r : Response) :
  marker ≠ EmptyString →
  leg marker r = Ok EmptyString → status_code r ≠ 200.
Proof.
  intros Hm. unfold leg. destruct (Z.eqb_spec (status_code r) 200) as [E|E];
    [|done].
  destruct (json_body r) as [j|]; [|discriminate].
  intros [= H]. by apply append_empty in H as [? _].
Qed.

(** X7: when both requests are answered, [booking_flight] returns the
    empty string exactly when neither leg has status 200. *)
Theorem flight_empty_iff_both_fail (w : World) (o d od rd : string)
    (r1 r2 : Response) :
  network w (sent w) (outbound_request w o d od rd) = Ok r1 →
  network w (sent w ++ [outbound_request w o d od rd])
    (return_request w o d od rd) = Ok r2 →
  fst (Sample04.booking_flight o d od rd w) = Ok EmptyString
  ↔ status_code r1 ≠ 200 ∧ status_code r2 ≠ 200.
Proof.
  intros H1 H2. pose proof (flight_answered w o d od rd r1 r2 H1 H2) as F.
  split.
  - intros Hs.
    destruct (leg outbound_marker r1) as [s1|e] eqn:L1;
      [|destruct F; congruence].
    destruct (leg return_marker r2) as [s2|e] eqn:L2;
      [|destruct F; congruence].
    destruct F as [F _]. rewrite F in Hs. injection Hs as Hs.
    apply append_empty in Hs as [-> ->].
    split; eapply leg_empty; eauto; discriminate.
  - intros [S1 S2].
    rewrite (leg_not_200 _ _ S1), (leg_not_200 _ _ S2) in F. by destruct F.
Qed.

Lemma flight_empty_iff_both_fail_witness :
  fst (Sample04.booking_flight "JFK" "LHR" "2026-02-20" "2026-02-27" unavailable)
  = Ok EmptyString.
Proof.
  apply (flight_empty_iff_both_fail unavailable "JFK" "LHR" "2026-02-20"
           "2026-02-27" {| status_code := 503; json_body := None |}
           {| status_code := 503; json_body := None |} eq_refl eq_refl).
  split; discriminate.
Defined.

(** X8: when both requests are answered and [booking_flight] returns, the
    result begins with the outbound marker exactly when the outbound leg
    has status 200: the first characters tell whether that leg failed. *)
Theorem flight_result_tells_outbound (w : World) (o d od rd : string)
    (r1 r2 : Response) (s : string) :
  network w (sent w) (outbound_request w o d od rd) = Ok r1 →
  network w (sent w ++ [outbound_request w o d od rd])
    (return_request w o d od rd) = Ok r2 →
  fst (Sample04.booking_flight o d od rd w) = Ok s →
  starts_with outbound_marker s ↔ status_code r1 = 200.
Proof.
  intros H1 H2 Hs. pose proof (flight_answered w o d od rd r1 r2 H1 H2) as F.
  destruct (leg_cases outbound_marker r1)
    as [[S1 L1]|[(S1 & N1 & L1)|(j1 & S1 & J1 & L1)]]; rewrite L1 in F.
  - destruct (leg_cases return_marker r2)
      as [[S2 L2]|[(S2 & N2 & L2)|(j2 & S2 & J2 & L2)]]; rewrite L2 in F;
      destruct F as [F _]; rewrite F in Hs; [|discriminate Hs|];
      injection Hs as <-; (split; [|done]); intros [rest E];
      vm_compute in E; discriminate E.
  - destruct F; congruence.
  - split; [done|]. intros _.
    destruct (leg return_marker r2) as [s2|e]; destruct F as [F _];
      rewrite F in Hs; [|discriminate Hs].
    injection Hs as <-. exists (str j1 +:+ s2). by rewrite append_assoc.
Qed.

Lemma flight_result_tells_outbound_witness :
  ¬ starts_with outbound_marker (return_marker +:+ str one_fare).
Proof.
  intros Hst.
  pose proof (proj1 (flight_result_tells_outbound
              (mock_world None (in_turn (http 503 None) (http 200 (Some one_fare))))
              "JFK" "LHR" "2026-02-20" "2026-02-27"
              {| status_code := 503; json_body := None |}
              {| status_code := 200; json_body := Some one_fare |}
              (return_marker +:+ str one_fare) eq_refl eq_refl eq_refl) Hst)
    as H.
  discriminate H.
Defined.

(** X9: with the same dates, [booking_flight] from [o] to [d] and
    [booking_flight] from [d] to [o] send the same two requests in
    opposite orders (when neither outbound leg raises): the return leg of
    one search is the outbound leg of the other. *)
Theorem flight_swapped_arguments (w : World) (o d od rd : string)
    (ra rb : Response) :
  network w (sent w) (outbound_request w o d od rd) = Ok ra →
  (status_code ra = 200 → is_Some (json_body ra)) →
  network w (sent w) (outbound_request w d o od rd) = Ok rb →
  (status_code rb = 200 → is_Some (json_body rb)) →
  issued (Sample04.booking_flight o d od rd) w
  = [outbound_request w o d od rd; outbound_request w d o od rd]
  ∧ issued (Sample04.booking_flight d o od rd) w
    = [outbound_request w d o od rd; outbound_request w o d od rd].
Proof.
  intros Ha Ja Hb Jb.
  assert (L : ∀ r, (status_code r = 200 → is_Some (json_body r)) →
                   ∃ s, leg outbound_marker r = Ok s).
  { intros r J. destruct (leg_cases outbound_marker r)
      as [[_ E]|[(S & N & _)|(j & _ & _ & E)]]; [by eexists| |by eexists].
    destruct (J S) as [j Hj]. congruence. }
  destruct (L ra Ja) as [sa La]. destruct (L rb Jb) as [sb Lb].
  split.
  - by destruct (flight_return_leg w o d od rd ra sa Ha La) as [_ ->].
  - by destruct (flight_return_leg w d o od rd rb sb Hb Lb) as [_ ->].
Qed.

Lemma flight_swapped_arguments_witness :
  issued (Sample04.booking_flight "JFK" "LHR" "2026-02-20" "2026-02-27")
    unavailable
  = [outbound_request unavailable "JFK" "LHR" "2026-02-20" "2026-02-27";
     outbound_request unavailable "LHR" "JFK" "2026-02-20" "2026-02-27"]
  ∧ issued (Sample04.booking_flight "LHR" "JFK" "2026-02-20" "2026-02-27")
      unavailable
    = [outbound_request unavailable "LHR" "JFK" "2026-02-20" "2026-02-27";
       outbound_request unavailable "JFK" "LHR" "2026-02-20" "2026-02-27"].
Proof.
  apply (flight_swapped_arguments unavailable "JFK" "LHR" "2026-02-20"
           "2026-02-27" {| status_code := 503; json_body := None |}
           {| status_code := 503; json_body := None |});
    first [reflexivity | discriminate].
Defined.

Lemma hotel_environ (w : World) (q ci co : string) :
  environ (snd (Sample04.booking_hotel q ci co w)) = environ w.
Proof.
  unfold Sample04.booking_hotel. run.
  destruct (network w (sent w) _) as [r|e]; cbn; [|done].
  destruct (status_code r =? 200); cbn; [|done].
  by destruct (json_body r) as [j|]; cbn.
Qed.

(** X10: [booking_hotel] keeps no cache and leaves the environment as it
    is: called again with the same arguments it sends the same request
    again, so two calls leave that request twice on the wire. *)
Theorem hotel_called_twice (w : World) (q ci co : string) :
  environ (snd (Sample04.booking_hotel q ci co w)) = environ w
  ∧ issued (Sample04.booking_hotel q ci co)
      (snd (Sample04.booking_hotel q ci co w))
    = [hotel_request w q ci co]
  ∧ sent (snd (Sample04.booking_hotel q ci co
                 (snd (Sample04.booking_hotel q ci co w))))
    = sent w ++ [hotel_request w q ci co; hotel_request w q ci co].
Proof.
  pose proof (hotel_environ w q ci co) as E.
  split; [done|]. split.
  - destruct (hotel_run (snd (Sample04.booking_hotel q ci co w)) q ci co)
      as [_ ->].
    unfold hotel_request, base_url. by rewrite E.
  - destruct (hotel_world (snd (Sample04.booking_hotel q ci co w)) q ci co)
      as [_ ->].
    destruct (hotel_world w q ci co) as [_ ->].
    rewrite <- app_assoc. unfold hotel_request, base_url. by rewrite E.
Qed.

Lemma resolve_step_all (c : Sample04.ToolCall) (w : World) :
  (length (sent (Sample04.resolve c w))
   + (hotel_runs_left (Sample04.resolve c w)
      + 2 * flight_runs_left (Sample04.resolve c w))
   ≤ length (sent w) + (hotel_runs_left w + 2 * flight_runs_left w))%nat.
Proof.
  unfold hotel_runs_left, flight_runs_left.
  destruct c as [q ci co | o d od rd]; cbn [Sample04.resolve].
  - unfold Sample04.booking_hotel_tool, ai_function.
    destruct (Nat.leb_spec 3 (default 0%nat (invocation_count w !! "booking_hotel")))
      as [Hge|Hlt]; cbn [snd]; [lia|].
    destruct (hotel_world (bump "booking_hotel" w) q ci co) as [-> ->].
    cbn [bump sent invocation_count].
    rewrite length_app, lookup_insert_eq, lookup_insert_ne by done. cbn. lia.
  - unfold Sample04.booking_flight_tool, ai_function.
    destruct (Nat.leb_spec 3 (default 0%nat (invocation_count w !! "booking_flight")))
      as [Hge|Hlt]; cbn [snd]; [lia|].
    destruct (flight_world (bump "booking_flight" w) o d od rd) as [-> ->].
    cbn [bump sent invocation_count].
    rewrite length_app, lookup_insert_eq, lookup_insert_ne by done.
    destruct (flight_issued (bump "booking_flight" w) o d od rd) as [-> | ->];
      cbn; lia.
Qed.

(** X11: with both tools declared with [max_invocations=3], and the cap
    enforced as in C7, any sequence of tool calls sends at most 9 requests
    to the search API: one for each of 3 hotel lookups and two for each of
    3 flight lookups. *)
Theorem capped_tools_send_at_most_9 (calls : list Sample04.ToolCall) (w : World) :
  (length (sent (Sample04.resolve_all calls w)) ≤ length (sent w) + 9)%nat.
Proof.
  assert (B : (length (sent (Sample04.resolve_all calls w))
               + (hotel_runs_left (Sample04.resolve_all calls w)
                  + 2 * flight_runs_left (Sample04.resolve_all calls w))
               ≤ length (sent w) + (hotel_runs_left w + 2 * flight_runs_left w))%nat).
  { revert w. induction calls as [|c calls IH]; intros w; [done|].
    cbn [Sample04.resolve_all foldl]. fold (Sample04.resolve_all calls).
    specialize (IH (Sample04.resolve c w)).
    pose proof (resolve_step_all c w). unfold Sample04.resolve_all in *. lia. }
  unfold hotel_runs_left, flight_runs_left in B. lia.
Qed.

(** ** Further properties of what is displayed *)




(** X13: when the first content item of the last message is not a text
    item, samples 01 and 03 raise [AttributeError] and display nothing,
    even if a later item of that message holds the answer. *)
Theorem display_attribute_error (w : World) (response : AgentRunResponse)
    (earlier : list ChatMessage) (last_message : ChatMessage)
    (c : Content) (others : list Content) :
  messages response = earlier ++ [last_message] →
  contents last_message = c :: others →
  (∀ t, c ≠ TextContent t) →
  fst (Sample01.show_travel_plan response w) = Raise AttributeError
  ∧ printed (Sample01.show_travel_plan response) w = []
  ∧ fst (Sample03.show_travel_plan response w) = Raise AttributeError
  ∧ printed (Sample03.show_travel_plan response) w = [].
Proof.
  intros Hm Hc Hn.
  unfold printed, Sample01.show_travel_plan, Sample03.show_travel_plan. run.
  rewrite Hm, list_getitem_last, Hc, list_getitem_first.
  destruct c as [t| |]; [by destruct (Hn t)| |]; cbn;
    repeat split; apply drop_all.
Qed.

Lemma display_attribute_error_witness :
  fst (Sample01.show_travel_plan tool_call_first_reply unavailable)
  = Raise AttributeError
  ∧ printed (Sample01.show_travel_plan tool_call_first_reply) unavailable = [].
Proof.
  destruct (display_attribute_error unavailable tool_call_first_reply []
              {| contents := [FunctionCallContent "get_random_destination";
                              TextContent "Here is a plan for Paris."] |}
              (FunctionCallContent "get_random_destination")
              [TextContent "Here is a plan for Paris."]
              eq_refl eq_refl) as (F & P & _); [discriminate|].
  split; [exact F | exact P].
Defined.

(** X14: [booking_flight] returns a string exactly when both of its
    requests are answered and every answer of status 200 has a JSON body;
    in every other case it raises. *)
Theorem flight_returns_iff (w : World) (o d od rd : string) :
  (∃ s, fst (Sample04.booking_flight o d od rd w) = Ok s)
  ↔ ∃ r1 r2,
      network w (sent w) (outbound_request w o d od rd) = Ok r1
      ∧ network w (sent w ++ [outbound_request w o d od rd])
          (return_request w o d od rd) = Ok r2
      ∧ (status_code r1 = 200 → is_Some (json_body r1))
      ∧ (status_code r2 = 200 → is_Some (json_body r2)).
Proof.
  split.
  - intros [s Hs].
    destruct (network w (sent w) (outbound_request w o d od rd))
      as [r1|e] eqn:H1;
      [|destruct (flight_outbound_raises w o d od rd e H1); congruence].
    destruct (leg_cases outbound_marker r1)
      as [[S1 L1]|[(S1 & N1 & L1)|(j1 & S1 & J1 & L1)]];
      [|destruct (flight_outbound_unparsed w o d od rd r1 _ H1 L1); congruence|];
      destruct (flight_return_leg w o d od rd r1 _ H1 L1) as [F _];
      rewrite F in Hs;
      destruct (network w (sent w ++ [outbound_request w o d od rd])
                  (return_request w o d od rd)) as [r2|e];
      try discriminate Hs;
      exists r1, r2; (split; [done|]); (split; [done|]);
      (split; [first [done | by intros _; rewrite J1]|]);
      intros S2;
      destruct (leg_cases return_marker r2)
        as [[S2' L2]|[(_ & N2 & L2)|(j2 & _ & J2 & L2)]];
      first [done | by rewrite L2 in Hs | by rewrite J2].
  - intros (r1 & r2 & H1 & H2 & J1 & J2).
    assert (L : ∀ m r, (status_code r = 200 → is_Some (json_body r)) →
                       ∃ s, leg m r = Ok s).
    { intros m r J. destruct (leg_cases m r)
        as [[_ E]|[(S & N & _)|(j & _ & _ & E)]]; [by eexists| |by eexists].
      destruct (J S) as [j Hj]. congruence. }
    destruct (L outbound_marker r1 J1) as [s1 E1].
    destruct (L return_marker r2 J2) as [s2 E2].
    destruct (flight_return_leg w o d od rd r1 s1 H1 E1) as [-> _].
    rewrite H2, E2. by eexists.
Qed.
